(** * pydruid: the SQLAlchemy dialect for Druid (pydruid/db/sqlalchemy.py)

    A shallow embedding of the dialect module.  Python values that flow
    through the module are an inductive type; dictionaries are finite maps;
    the three effects the module has (running SQL on a connection handed in
    by the caller, emitting a warning, raising an exception) are a small
    log-and-error monad.  The framework pieces the module only calls
    (the URL object, the connection, [text]) are inputs, and so is the
    warnings filter of the interpreter, which decides whether
    [util.warn] returns or raises. *)

From Stdlib Require Import Ascii String.
From stdpp Require Import gmap strings list fin_maps pretty.

Open Scope string_scope.
Open Scope Z_scope.
Open Scope list_scope.

(** ** Python values *)

(** The scalars a result row or a URL field can hold. *)
Inductive pyval : Type :=
  | VNone
  | VBool (b : bool)
  | VInt (n : Z)
  | VStr (s : string).

#[global] Instance pyval_eq_dec : EqDecision pyval.
Proof. solve_decision. Defined.

(** [bool(v)]. *)
Definition truthy (v : pyval) : bool :=
  match v with
  | VNone => false
  | VBool b => b
  | VInt n => negb (n =? 0)
  | VStr s => negb (String.eqb s "")
  end.

(** [a or b]. *)
Definition py_or (a b : pyval) : pyval := if truthy a then a else b.

(** [a == b]; [bool] is a subclass of [int], so [True == 1]. *)
Definition py_eq (a b : pyval) : bool :=
  match a, b with
  | VNone, VNone => true
  | VBool x, VBool y => Bool.eqb x y
  | VInt x, VInt y => (x =? y)
  | VBool x, VInt y | VInt y, VBool x => (Z.b2z x =? y)
  | VStr x, VStr y => String.eqb x y
  | _, _ => false
  end.

(** [a != b]. *)
Definition py_ne (a b : pyval) : bool := negb (py_eq a b).

(** [str(v)], which is also what an empty format spec renders. *)
Definition py_str (v : pyval) : string :=
  match v with
  | VNone => "None"
  | VBool true => "True"
  | VBool false => "False"
  | VInt n => pretty n
  | VStr s => s
  end.

(** [x in xs] for a list [xs]. *)
Definition py_in_list (x : pyval) (xs : list pyval) : bool :=
  existsb (py_eq x) xs.

Definition of_opt_str (o : option string) : pyval :=
  match o with Some s => VStr s | None => VNone end.

Definition of_opt_int (o : option Z) : pyval :=
  match o with Some n => VInt n | None => VNone end.

(** ** Exceptions, effects *)

(** The exception classes that matter to the module: the three builtin
    ones that derive from [BaseException] without deriving from
    [Exception], and everything else (which does derive from it). *)
Inductive exn : Type :=
  | KeyboardInterrupt
  | SystemExit
  | GeneratorExit
  | AttributeError (msg : string)
  | OtherException (cls msg : string).

(** [isinstance(e, Exception)]. *)
Definition isinstance_Exception (e : exn) : bool :=
  match e with
  | KeyboardInterrupt | SystemExit | GeneratorExit => false
  | AttributeError _ | OtherException _ _ => true
  end.

Inductive outcome (A : Type) : Type :=
  | Return (a : A)
  | Raise (e : exn).
Arguments Return {A} a.
Arguments Raise {A} e.

(** What a call leaves behind besides its result. *)
Inductive event : Type :=
  | Executed (sql : string)
  | Warned (msg : string).

Definition W (A : Type) : Type := list event * outcome A.

Definition ret {A} (a : A) : W A := ([], Return a).

Definition raise {A} (e : exn) : W A := ([], Raise e).

Definition bind {A B} (m : W A) (k : A → W B) : W B :=
  match m with
  | (log, Return a) => let '(log', r) := k a in (log ++ log', r)
  | (log, Raise e) => (log, Raise e)
  end.

Notation "'let*' x := c 'in' k" := (bind c (fun x => k))
  (at level 10, x name, c at level 100, k at level 200).

(** [try: body / except Exception: handler]. *)
Definition try_except_Exception {A} (body : W A) (handler : W A) : W A :=
  match body with
  | (log, Return a) => (log, Return a)
  | (log, Raise e) =>
      if isinstance_Exception e
      then let '(log', r) := handler in (log ++ log', r)
      else (log, Raise e)
  end.

(** What the warnings filter of the interpreter does with a warning. *)
Inductive action : Type :=
  | act_default | act_error | act_ignore | act_always | act_module | act_once.

(** The warnings filter in force while a method runs, as far as this
    module meets it: the action it selects for an [SAWarning] issued
    from here, which can depend on the text of the message. *)
Definition warnings_filter : Type := string → action.

Definition turns_into_error (filters : warnings_filter) (msg : string) : bool :=
  match filters msg with
  | act_error => true
  | act_default | act_ignore | act_always | act_module | act_once => false
  end.

(** [exc.SAWarning(msg)], a subclass of [Exception]. *)
Definition SAWarning (msg : string) : exn := OtherException "SAWarning" msg.

(** [util.warn(msg)], which issues an [SAWarning] through
    [warnings.warn]: under the action [error] the warning is raised as
    an exception; under every other action the call returns, whether
    the warning is shown or not.  The event records the call. *)
Definition warn (filters : warnings_filter) (msg : string) : W unit :=
  ([Warned msg],
   if turns_into_error filters msg then Raise (SAWarning msg) else Return tt).

(** ** Rows and connections *)

(** A result row: named-field access to the columns of the query. *)
Abbreviation Row := (gmap string pyval).

(** [row.<name>]. *)
Definition getattr (row : Row) (name : string) : W pyval :=
  match row !! name with
  | Some v => ret v
  | None => raise (AttributeError name)
  end.

(** The caller's connection: what [execute] answers to a statement. *)
Record Connection : Type := { conn_execute : string → outcome (list Row) }.

(** [connection.execute(sql)]. *)
Definition execute (c : Connection) (sql : string) : W (list Row) :=
  ([Executed sql], conn_execute c sql).

(** [text(sql)] wraps the statement text and leaves it as it is. *)
Definition text (sql : string) : string := sql.

(** ** The JDBC type table *)

Inductive sa_type : Type :=
  | BigInteger | String_ | Float | Boolean | DATE | TIMESTAMP | BLOB | NullType.

#[global] Instance sa_type_eq_dec : EqDecision sa_type.
Proof. solve_decision. Defined.

Definition jdbc_type_map : gmap Z sa_type :=
  list_to_map
    [ (-6, BigInteger); (-5, BigInteger); (1, String_); (3, Float);
      (4, BigInteger); (5, BigInteger); (6, Float); (7, Float); (8, Float);
      (12, String_); (16, Boolean); (91, DATE); (93, TIMESTAMP);
      (1111, BLOB) ].

(** The key of an integer-keyed dict a value hashes and compares equal
    to, if any ([True] is [1], [False] is [0]). *)
Definition int_key (v : pyval) : option Z :=
  match v with
  | VInt n => Some n
  | VBool b => Some (Z.b2z b)
  | VNone | VStr _ => None
  end.

Definition unmapped_warning (name code : pyval) : string :=
  "Failed to map column '" +:+ py_str name +:+ "' with JDBC type '"
    +:+ py_str code +:+ "' to a sqlalchemy type.".

(** [DruidDialect._map_jdbc_type], under the warnings filter in force.
    The membership test and the
    subscription read the same key of the same table, so they are one
    lookup here; the message reads [COLUMN_NAME], then [JDBC_TYPE]. *)
Definition _map_jdbc_type (filters : warnings_filter) (row : Row) : W sa_type :=
  let* code := getattr row "JDBC_TYPE" in
  match int_key code ≫= (jdbc_type_map !!.) with
  | Some ty => ret ty
  | None =>
      let* name := getattr row "COLUMN_NAME" in
      let* code := getattr row "JDBC_TYPE" in
      let* _ := warn filters (unmapped_warning name code) in
      ret NullType
  end.

(** The table as the documentation lists it. *)
Definition documented_jdbc_type (code : Z) : option sa_type :=
  if decide (code = -6 ∨ code = -5) then Some BigInteger
  else if decide (code = 1) then Some String_
  else if decide (code = 3) then Some Float
  else if decide (code = 4 ∨ code = 5) then Some BigInteger
  else if decide (code = 6 ∨ code = 7 ∨ code = 8) then Some Float
  else if decide (code = 12) then Some String_
  else if decide (code = 16) then Some Boolean
  else if decide (code = 91) then Some DATE
  else if decide (code = 93) then Some TIMESTAMP
  else if decide (code = 1111) then Some BLOB
  else None.


(** ** Identifier preparer *)

(** [class UniversalSet]: an object without fields. *)
Inductive UniversalSet : Type := UniversalSet_new.

(** [UniversalSet.__contains__], for an item of any type. *)
Definition __contains__ {A : Type} (self : UniversalSet) (item : A) : bool :=
  true.

(** [DruidIdentifierPreparer.reserved_words]. *)
Definition reserved_words : UniversalSet := UniversalSet_new.

(** ** Strings: [str.lower] *)

Definition lower_ascii (c : ascii) : ascii :=
  let n := N_of_ascii c in
  if ((65 <=? n) && (n <=? 90))%N then ascii_of_N (n + 32) else c.

(** [s.lower()] on text in the ASCII range. *)
Fixpoint lower (s : string) : string :=
  match s with
  | EmptyString => EmptyString
  | String c rest => String (lower_ascii c) (lower rest)
  end.

Section RequiresQuotes.
(** The tests of the framework's quoting predicate that come after the
    reserved-word test (illegal first character, illegal characters,
    capitals); they can fail on an empty identifier. *)
Variable other_tests : string → outcome bool.

(** Modelled from the spec: the quoting predicate is the framework's
    ([compiler.IdentifierPreparer], the base class, is not part of this
    module).  It is the disjunction
    [lc_value in self.reserved_words or ...], which asks the reserved
    words about the lower-cased identifier before anything else. *)
Definition requires_quotes (value : string) : outcome bool :=
  if __contains__ reserved_words (lower value) then Return true
  else other_tests value.
End RequiresQuotes.

(** ** Type compiler *)

Module DruidTypeCompiler.
Section Visit.
(** The type descriptor handed to a visit method; none of them reads it. *)
Context {TypeEngine : Type}.

Definition visit_REAL (type_ : TypeEngine) : string := "DOUBLE".

Definition visit_NUMERIC (type_ : TypeEngine) : string := "LONG".

Definition visit_DECIMAL := visit_NUMERIC.
Definition visit_INTEGER := visit_NUMERIC.
Definition visit_SMALLINT := visit_NUMERIC.
Definition visit_BIGINT := visit_NUMERIC.
Definition visit_BOOLEAN := visit_NUMERIC.
Definition visit_TIMESTAMP := visit_NUMERIC.
Definition visit_DATE := visit_NUMERIC.

Definition visit_CHAR (type_ : TypeEngine) : string := "STRING".

Definition visit_NCHAR := visit_CHAR.
Definition visit_VARCHAR := visit_CHAR.
Definition visit_NVARCHAR := visit_CHAR.
Definition visit_TEXT := visit_CHAR.

Definition visit_DATETIME (type_ : TypeEngine) : string := "LONG".

Definition visit_TIME (type_ : TypeEngine) : string := "LONG".

Definition visit_BLOB (type_ : TypeEngine) : string := "COMPLEX".

Definition visit_CLOB := visit_BLOB.
Definition visit_NCLOB := visit_BLOB.
Definition visit_VARBINARY := visit_BLOB.
Definition visit_BINARY := visit_BLOB.
End Visit.
End DruidTypeCompiler.

(** ** The dialect *)

(** A value of the URL's query mapping: one string, or a tuple of them
    when the parameter is repeated. *)
Inductive qval : Type :=
  | QStr (s : string)
  | QTuple (l : list string).

(** [sqlalchemy.engine.url.URL], as the dialect reads it. *)
Record URL : Type := {
  host : option string;
  port : option Z;
  username : option string;
  password : option string;
  database : option string;
  query : gmap string qval
}.

(** The two classes [parse_float] chooses between. *)
Inductive pyclass : Type := Decimal | float.

(** A value of the keyword-argument mapping. *)
Inductive kwval : Type :=
  | KVal (v : pyval)
  | KTuple (l : list string)
  | KContext (c : gmap string pyval)
  | KClass (c : pyclass).

Definition of_qval (q : qval) : kwval :=
  match q with QStr s => KVal (VStr s) | QTuple l => KTuple l end.

(** [q == s] for what [url.query.get] returned and a string [s]. *)
Definition qget_eq (q : option qval) (s : string) : bool :=
  match q with Some (QStr x) => String.eqb x s | _ => false end.

(** The instance state [create_connect_args] reads. *)
Record DruidDialect : Type := {
  scheme : string;
  context : gmap string pyval
}.

(** [DruidDialect.__init__]: [self.context = context or {}]. *)
Definition DruidDialect_init (context : option (gmap string pyval)) : DruidDialect :=
  {| scheme := "http"; context := default ∅ context |}.

(** [DruidHTTPSDialect.__init__]: the subclass overrides [scheme]. *)
Definition DruidHTTPSDialect_init (context : option (gmap string pyval)) : DruidDialect :=
  {| scheme := "https"; context := default ∅ context |}.

(** A dict display [{**base, k1: v1, ..., kn: vn}]: later keys win. *)
Definition dict_display (base : gmap string kwval) (items : list (string * kwval))
    : gmap string kwval :=
  foldl (λ m kv, <[kv.1 := kv.2]> m) base items.

Definition consumed_params : list string :=
  ["ssl_verify_cert"; "parse_float_as_decimal"].

Definition standard_args (url : URL) : gmap string kwval :=
  of_qval <$> filter (λ kv, kv.1 ∉ consumed_params) (query url).

(** [DruidDialect.create_connect_args]. *)
Definition create_connect_args (self : DruidDialect) (url : URL)
    : list kwval * gmap string kwval :=
  let kwargs :=
    dict_display (standard_args url)
      [ ("host", KVal (of_opt_str (host url)));
        ("port", KVal (py_or (of_opt_int (port url)) (VInt 8082)));
        ("user", KVal (py_or (of_opt_str (username url)) VNone));
        ("password", KVal (py_or (of_opt_str (password url)) VNone));
        ("path", KVal (of_opt_str (database url)));
        ("scheme", KVal (VStr (scheme self)));
        ("context", KContext (context self));
        ("header", KVal (VBool (qget_eq (query url !! "header") "true")));
        ("parse_float",
          KClass (if qget_eq (query url !! "parse_float_as_decimal") "true"
                  then Decimal else float));
        ("ssl_verify_cert",
          default (KVal (VBool true)) (of_qval <$> query url !! "ssl_verify_cert")) ]
  in ([], kwargs).

(** [DruidDialect.do_ping]: the handler returns [False]; the [return True]
    after the [try] statement is reached when the body did not raise. *)
Definition do_ping (dbapi_connection : Connection) : W bool :=
  try_except_Exception
    (let* _ := execute dbapi_connection "SELECT 1" in ret true)
    (ret false).

Definition RESERVED_SCHEMAS : list pyval := [VStr "INFORMATION_SCHEMA"].

(** The comprehension
    [[row.SCHEMA_NAME for row in result
      if row.SCHEMA_NAME not in RESERVED_SCHEMAS]]. *)
Fixpoint schema_names_of (result : list Row) : W (list pyval) :=
  match result with
  | [] => ret []
  | row :: rest =>
      let* name := getattr row "SCHEMA_NAME" in
      if negb (py_in_list name RESERVED_SCHEMAS)
      then
        let* item := getattr row "SCHEMA_NAME" in
        let* items := schema_names_of rest in
        ret (item :: items)
      else schema_names_of rest
  end.

Definition schemata_query : string :=
  "SELECT SCHEMA_NAME FROM INFORMATION_SCHEMA.SCHEMATA".

(** [DruidDialect.get_schema_names]. *)
Definition get_schema_names (connection : Connection) : W (list pyval) :=
  let* result := execute connection (text schemata_query) in
  schema_names_of result.

Definition nl : string := String (ascii_of_nat 10) EmptyString.

(** The template of [has_table] with [{table_name}] filled in. *)
Definition has_table_query (table_name : string) : string :=
  nl +:+ "            SELECT COUNT(*) > 0 AS exists_"
  +:+ nl +:+ "              FROM INFORMATION_SCHEMA.TABLES"
  +:+ nl +:+ "             WHERE TABLE_NAME = '" +:+ table_name +:+ "'"
  +:+ nl +:+ "        ".

(** [result.fetchone()]: the first row, or [None]. *)
Definition fetchone (result : list Row) : option Row := head result.

(** [DruidDialect.has_table]. *)
Definition has_table (connection : Connection) (table_name : string)
    (schema : pyval) : W pyval :=
  let query := has_table_query table_name in
  let* result := execute connection (text query) in
  match fetchone result with
  | Some row => getattr row "exists_"
  | None => raise (AttributeError "exists_")
  end.

(** [get_is_nullable]. *)
Definition get_is_nullable (druid_is_nullable : string) : bool :=
  String.eqb (lower druid_is_nullable) "yes".

(** [get_default]. *)
Definition get_default (druid_column_default : pyval) : pyval :=
  if py_ne druid_column_default (VStr "")
  then VStr (py_str druid_column_default)
  else VNone.

(** ** Tables and columns *)

(** The statement of [get_table_names]: the filter is added when
    [schema] is truthy. *)
Definition table_names_query (schema : pyval) : string :=
  let query := "SELECT TABLE_NAME FROM INFORMATION_SCHEMA.TABLES" in
  if truthy schema
  then query +:+ " WHERE TABLE_SCHEMA = '" +:+ py_str schema +:+ "'"
  else query.

(** The comprehension [[row.TABLE_NAME for row in result]]. *)
Fixpoint table_names_of (result : list Row) : W (list pyval) :=
  match result with
  | [] => ret []
  | row :: rest =>
      let* item := getattr row "TABLE_NAME" in
      let* items := table_names_of rest in
      ret (item :: items)
  end.

(** [DruidDialect.get_table_names]. *)
Definition get_table_names (connection : Connection) (schema : pyval)
    : W (list pyval) :=
  let* result := execute connection (text (table_names_query schema)) in
  table_names_of result.

(** The statement of [get_columns]: the template with [{table_name}]
    filled in, and the schema filter appended when [schema] is truthy. *)
Definition columns_query (table_name : string) (schema : pyval) : string :=
  let query :=
    nl +:+ "            SELECT COLUMN_NAME,"
    +:+ nl +:+ "                   JDBC_TYPE,"
    +:+ nl +:+ "                   IS_NULLABLE,"
    +:+ nl +:+ "                   COLUMN_DEFAULT"
    +:+ nl +:+ "              FROM INFORMATION_SCHEMA.COLUMNS"
    +:+ nl +:+ "             WHERE TABLE_NAME = '" +:+ table_name +:+ "'"
    +:+ nl +:+ "        " in
  if truthy schema
  then query +:+ " AND TABLE_SCHEMA = '" +:+ py_str schema +:+ "'"
  else query.

(** The dict [get_columns] builds for a column, by its keys
    ["name"], ["type"], ["nullable"] and ["default"]. *)
Record column : Type := {
  col_name : pyval;
  col_type : sa_type;
  col_nullable : bool;
  col_default : pyval
}.

(** The call [get_is_nullable(v)] on a field of a row: the method
    [lower] exists on strings only. *)
Definition call_get_is_nullable (v : pyval) : W bool :=
  match v with
  | VStr s => ret (get_is_nullable s)
  | VNone | VBool _ | VInt _ => raise (AttributeError "lower")
  end.

(** The dict display of the comprehension in [get_columns]; its values
    are evaluated in the order they are written. *)
Definition column_of (filters : warnings_filter) (row : Row) : W column :=
  let* name := getattr row "COLUMN_NAME" in
  let* ty := _map_jdbc_type filters row in
  let* is_nullable := getattr row "IS_NULLABLE" in
  let* nullable := call_get_is_nullable is_nullable in
  let* column_default := getattr row "COLUMN_DEFAULT" in
  ret {| col_name := name; col_type := ty; col_nullable := nullable;
         col_default := get_default column_default |}.

Fixpoint columns_of (filters : warnings_filter) (result : list Row)
    : W (list column) :=
  match result with
  | [] => ret []
  | row :: rest =>
      let* item := column_of filters row in
      let* items := columns_of filters rest in
      ret (item :: items)
  end.

(** [DruidDialect.get_columns], under the warnings filter in force. *)
Definition get_columns (filters : warnings_filter) (connection : Connection)
    (table_name : string) (schema : pyval) : W (list column) :=
  let* result := execute connection (text (columns_query table_name schema)) in
  columns_of filters result.

(** ** What the properties of the further methods are stated with *)

(** A row [get_columns] can describe: the four fields are there and
    [IS_NULLABLE] is a string. *)
Definition describable (row : Row) : Prop :=
  is_Some (row !! "COLUMN_NAME")
  ∧ is_Some (row !! "JDBC_TYPE")
  ∧ (∃ s : string, row !! "IS_NULLABLE" = Some (VStr s))
  ∧ is_Some (row !! "COLUMN_DEFAULT").

(** The entry of the table for the type code of a row, if there is one. *)
Definition mapped_type (row : Row) : option sa_type :=
  match row !! "JDBC_TYPE" with
  | Some code =>
      match int_key code with
      | Some key => jdbc_type_map !! key
      | None => None
      end
  | None => None
  end.

(** The message of the warning the mapper issues for a row, if it
    issues one: the code has no entry and both fields of the message
    are there. *)
Definition unmapped_message (row : Row) : option string :=
  match mapped_type row with
  | Some _ => None
  | None =>
      match row !! "COLUMN_NAME", row !! "JDBC_TYPE" with
      | Some name, Some code => Some (unmapped_warning name code)
      | _, _ => None
      end
  end.

(** The filter does not turn the warning of this row into an error. *)
Definition quiet (filters : warnings_filter) (row : Row) : Prop :=
  ∀ msg : string,
    unmapped_message row = Some msg → turns_into_error filters msg = false.


(** The URL with another query mapping. *)
Definition with_query (url : URL) (q : gmap string qval) : URL :=
  {| host := host url; port := port url; username := username url;
     password := password url; database := database url; query := q |}.

(** The ten keys [create_connect_args] sets itself. *)
Definition fixed_keys : list string :=
  ["host"; "port"; "user"; "password"; "path"; "scheme"; "context";
   "header"; "parse_float"; "ssl_verify_cert"].

(** ** Case-insensitive equality, stated without [lower] *)

Definition is_upper (c : ascii) : Prop :=
  (65 ≤ N_of_ascii c ∧ N_of_ascii c ≤ 90)%N.

(** Two characters are the same letter when they are equal or one is the
    capital of the other. *)
Definition same_letter (a b : ascii) : Prop :=
  a = b
  ∨ (is_upper a ∧ N_of_ascii b = (N_of_ascii a + 32)%N)
  ∨ (is_upper b ∧ N_of_ascii a = (N_of_ascii b + 32)%N).

Inductive eq_ignore_case : string → string → Prop :=
  | eic_empty : eq_ignore_case EmptyString EmptyString
  | eic_char a b s t :
      same_letter a b → eq_ignore_case s t →
      eq_ignore_case (String a s) (String b t).

(** ** Inputs used in the statements below *)

(** The URL object of
    [druid://user:pw@host1:9000/mydb?header=true&ssl_verify_cert=false&custom=1]. *)
Definition example_url : URL :=
  {| host := Some "host1"; port := Some 9000;
     username := Some "user"; password := Some "pw";
     database := Some "mydb";
     query := list_to_map [ ("header", QStr "true");
                            ("ssl_verify_cert", QStr "false");
                            ("custom", QStr "1") ] |}.

(** [druid://host1/mydb]: no port, no credentials. *)
Definition bare_url : URL :=
  {| host := Some "host1"; port := None; username := None; password := None;
     database := Some "mydb"; query := ∅ |}.

(** A URL built with port [0] and empty credentials. *)
Definition falsy_url : URL :=
  {| host := Some "host1"; port := Some 0;
     username := Some ""; password := Some "";
     database := None; query := ∅ |}.

(** The filter of an interpreter started with [-W error]. *)
Definition error_filter : warnings_filter := λ _, act_error.

(** The filter that shows the first occurrence of a warning (the
    action the interpreter has for a warning it has no entry for). *)
Definition default_filter : warnings_filter := λ _, act_default.

(** A connection on which every statement is interrupted from the keyboard. *)
Definition interrupted_connection : Connection :=
  {| conn_execute := λ _, Raise KeyboardInterrupt |}.

(** A connection whose driver fails on every statement. *)
Definition failing_connection : Connection :=
  {| conn_execute := λ _, Raise (OtherException "ConnectionError" "refused") |}.

(** A connection that answers every statement with the given rows. *)
Definition answering_connection (rows : list Row) : Connection :=
  {| conn_execute := λ _, Return rows |}.

(** What a SCHEMATA query may answer: a repeated name, the reserved
    name, and the reserved name in lower case. *)
Definition example_schemata : list Row :=
  [ {[ "SCHEMA_NAME" := VStr "druid" ]};
    {[ "SCHEMA_NAME" := VStr "INFORMATION_SCHEMA" ]};
    {[ "SCHEMA_NAME" := VStr "sys" ]};
    {[ "SCHEMA_NAME" := VStr "information_schema" ]};
    {[ "SCHEMA_NAME" := VStr "druid" ]} ].

(** A URL whose query names keys the dialect sets itself. *)
Definition shadowing_url : URL :=
  {| host := Some "broker"; port := None; username := None; password := None;
     database := Some "druid/v2/sql";
     query := list_to_map [ ("host", QStr "elsewhere"); ("port", QStr "1");
                            ("scheme", QStr "ftp"); ("timeout", QStr "30");
                            ("parse_float_as_decimal", QStr "true") ] |}.

(** What a COLUMNS query may answer: a mapped column, and one whose
    type code has no entry. *)
Definition example_columns : list Row :=
  [ list_to_map [ ("COLUMN_NAME", VStr "__time"); ("JDBC_TYPE", VInt 93);
                  ("IS_NULLABLE", VStr "NO"); ("COLUMN_DEFAULT", VStr "") ];
    list_to_map [ ("COLUMN_NAME", VStr "tags"); ("JDBC_TYPE", VInt 2003);
                  ("IS_NULLABLE", VStr "YES"); ("COLUMN_DEFAULT", VStr "") ] ].

(** A row of a COLUMNS answer whose [IS_NULLABLE] is null. *)
Definition nullable_none_row : Row :=
  list_to_map [ ("COLUMN_NAME", VStr "added"); ("JDBC_TYPE", VInt (-5));
                ("IS_NULLABLE", VNone); ("COLUMN_DEFAULT", VStr "") ].

(** * Properties *)

(** ** The effect monad *)

Lemma bind_ret_l {A B} (a : A) (k : A → W B) : bind (ret a) k = k a.
Proof. unfold bind, ret. by destruct (k a). Qed.

Lemma bind_raise {A B} (e : exn) (k : A → W B) : bind (raise e) k = raise e.
Proof. reflexivity. Qed.

Lemma bind_ret_r {A} (m : W A) : bind m ret = m.
Proof.
  destruct m as [log [a|e]]; simpl; [|done]. by rewrite app_nil_r.
Qed.

Lemma getattr_Some (row : Row) (name : string) (v : pyval) :
  row !! name = Some v → getattr row name = ret v.
Proof. intros H. unfold getattr. by rewrite H. Qed.

Lemma getattr_None (row : Row) (name : string) :
  row !! name = None → getattr row name = raise (AttributeError name).
Proof. intros H. unfold getattr. by rewrite H. Qed.

(** ** C1: the JDBC type mapper *)

Lemma jdbc_type_map_documented (code : Z) :
  jdbc_type_map !! code = documented_jdbc_type code.
Proof.
  unfold documented_jdbc_type.
  repeat case_decide;
    repeat match goal with H : _ ∨ _ |- _ => destruct H end;
    subst; try reflexivity.
  apply not_elem_of_list_to_map_1. simpl.
  rewrite !not_elem_of_cons. intuition (try lia).
  eapply not_elem_of_nil; eauto.
Qed.

Lemma warn_then_ret {A} (filters : warnings_filter) (msg : string) (a : A) :
  (let* _ := warn filters msg in ret a)
    = ([Warned msg],
       if turns_into_error filters msg then Raise (SAWarning msg) else Return a).
Proof. unfold warn, bind, ret. by destruct (turns_into_error filters msg). Qed.

(** C1 as stated fails: under a warnings filter that turns warnings
    into errors, a row whose integer code is outside the table does not
    get the null type; the warning is raised as an exception. *)
Lemma map_jdbc_type_raises_under_error_filter :
  documented_jdbc_type 2003 = None
  ∧ _map_jdbc_type error_filter
      (list_to_map [("COLUMN_NAME", VStr "tags"); ("JDBC_TYPE", VInt 2003)])
    = ([Warned "Failed to map column 'tags' with JDBC type '2003' to a sqlalchemy type."],
       Raise (SAWarning
                "Failed to map column 'tags' with JDBC type '2003' to a sqlalchemy type."))
  ∧ (_map_jdbc_type error_filter
       (list_to_map [("COLUMN_NAME", VStr "tags"); ("JDBC_TYPE", VInt 2003)])).2
    ≠ Return NullType.
Proof. repeat split. discriminate. Qed.

(** C1, amended. Under every warnings filter a row whose type code is
    in the documented table is mapped to the documented type, without
    any warning and without raising.  A row that has a column name and
    whose integer code is outside the table makes the mapper call
    [util.warn] exactly once, with a message that names the column and
    the code; the mapper then returns the null type, unless the filter
    turns that warning into an error, in which case it raises it. *)
Theorem map_jdbc_type_table_or_warning :
  (∀ (filters : warnings_filter) (row : Row) (code : Z) (ty : sa_type),
      documented_jdbc_type code = Some ty →
      row !! "JDBC_TYPE" = Some (VInt code) →
      _map_jdbc_type filters row = ([], Return ty))
  ∧ (∀ (filters : warnings_filter) (row : Row) (code : Z) (name : pyval)
       (msg : string),
      documented_jdbc_type code = None →
      row !! "JDBC_TYPE" = Some (VInt code) →
      row !! "COLUMN_NAME" = Some name →
      msg = "Failed to map column '" +:+ py_str name
            +:+ "' with JDBC type '" +:+ pretty code
            +:+ "' to a sqlalchemy type." →
      _map_jdbc_type filters row =
        ([Warned msg],
         if turns_into_error filters msg then Raise (SAWarning msg)
         else Return NullType)).
Proof.
  split.
  - intros filters row code ty Hdoc Hcode. unfold _map_jdbc_type.
    rewrite (getattr_Some _ _ _ Hcode), bind_ret_l. cbn [int_key mbind option_bind].
    by rewrite jdbc_type_map_documented, Hdoc.
  - intros filters row code name msg Hdoc Hcode Hname ->. unfold _map_jdbc_type.
    rewrite (getattr_Some _ _ _ Hcode), bind_ret_l. cbn [int_key mbind option_bind].
    rewrite jdbc_type_map_documented, Hdoc.
    by rewrite (getattr_Some _ _ _ Hname), !bind_ret_l, warn_then_ret.
Qed.

Lemma map_jdbc_type_table_or_warning_witness :
  _map_jdbc_type error_filter
    (list_to_map [("COLUMN_NAME", VStr "__time"); ("JDBC_TYPE", VInt 93)])
    = ([], Return TIMESTAMP)
  ∧ _map_jdbc_type default_filter
      (list_to_map [("COLUMN_NAME", VStr "tags"); ("JDBC_TYPE", VInt 2003)])
    = ([Warned "Failed to map column 'tags' with JDBC type '2003' to a sqlalchemy type."],
       Return NullType).
Proof.
  split.
  - apply (proj1 map_jdbc_type_table_or_warning error_filter _ 93 TIMESTAMP);
      reflexivity.
  - apply (proj2 map_jdbc_type_table_or_warning default_filter _ 2003 (VStr "tags")
             "Failed to map column 'tags' with JDBC type '2003' to a sqlalchemy type.");
      reflexivity.
Defined.

(** ** C2, C10: connection arguments *)

Lemma standard_args_lookup (url : URL) (k : string) :
  standard_args url !! k =
    if decide (k ∈ consumed_params) then None else of_qval <$> query url !! k.
Proof.
  unfold standard_args. rewrite lookup_fmap, map_lookup_filter.
  destruct (query url !! k) as [q|]; simpl; case_decide; try done.
  - by rewrite option_guard_False by (simpl; tauto).
  - by rewrite option_guard_True by done.
Qed.

(** Looking a key up in the keyword arguments: walk the dict display
    from its last item back to [standard_args]. *)
Ltac kwargs_lookup :=
  unfold create_connect_args, dict_display; cbn [foldl fst snd];
  repeat (rewrite lookup_insert_ne by done);
  try rewrite lookup_insert_eq;
  try rewrite standard_args_lookup.

Lemma kwargs_port (self : DruidDialect) (url : URL) :
  (create_connect_args self url).2 !! "port"
    = Some (KVal (py_or (of_opt_int (port url)) (VInt 8082))).
Proof. by kwargs_lookup. Qed.

Lemma kwargs_user (self : DruidDialect) (url : URL) :
  (create_connect_args self url).2 !! "user"
    = Some (KVal (py_or (of_opt_str (username url)) VNone)).
Proof. by kwargs_lookup. Qed.

Lemma kwargs_password (self : DruidDialect) (url : URL) :
  (create_connect_args self url).2 !! "password"
    = Some (KVal (py_or (of_opt_str (password url)) VNone)).
Proof. by kwargs_lookup. Qed.

(** X16. A parameter that is not consumed and not one of the ten fixed keys
    is passed through as it is. *)
Lemma kwargs_passthrough (self : DruidDialect) (url : URL) (k : string) :
  k ∉ consumed_params →
  k ∉ ["host"; "port"; "user"; "password"; "path"; "scheme"; "context";
       "header"; "parse_float"; "ssl_verify_cert"] →
  (create_connect_args self url).2 !! k = of_qval <$> query url !! k.
Proof.
  intros Hc Hk. rewrite !not_elem_of_cons in Hk.
  unfold create_connect_args, dict_display; cbn [foldl fst snd].
  rewrite !lookup_insert_ne by (simpl; intros ?; subst k; intuition congruence).
  rewrite standard_args_lookup. by case_decide.
Qed.

(** C2. For the URL of the example the positional list is empty and the
    keyword mapping holds host, port, user, password, path, the boolean
    header, the string ssl_verify_cert and the passthrough key custom;
    for every URL the two consumed parameters are not among the
    passthrough keys, and parse_float_as_decimal is not a key of the
    result at all; for every URL without a port, port is 8082. *)
Theorem create_connect_args_example_and_port_default (self : DruidDialect) :
  ((create_connect_args self example_url).1 = []
   ∧ (create_connect_args self example_url).2 !! "host" = Some (KVal (VStr "host1"))
   ∧ (create_connect_args self example_url).2 !! "port" = Some (KVal (VInt 9000))
   ∧ (create_connect_args self example_url).2 !! "user" = Some (KVal (VStr "user"))
   ∧ (create_connect_args self example_url).2 !! "password" = Some (KVal (VStr "pw"))
   ∧ (create_connect_args self example_url).2 !! "path" = Some (KVal (VStr "mydb"))
   ∧ (create_connect_args self example_url).2 !! "header" = Some (KVal (VBool true))
   ∧ (create_connect_args self example_url).2 !! "ssl_verify_cert"
       = Some (KVal (VStr "false"))
   ∧ (create_connect_args self example_url).2 !! "custom" = Some (KVal (VStr "1")))
  ∧ (∀ url : URL,
       standard_args url !! "ssl_verify_cert" = None
       ∧ standard_args url !! "parse_float_as_decimal" = None
       ∧ (create_connect_args self url).2 !! "parse_float_as_decimal" = None)
  ∧ (∀ url : URL,
       port url = None →
       (create_connect_args self url).2 !! "port" = Some (KVal (VInt 8082))).
Proof.
  split; [|split].
  - split; [done|]. repeat split; by kwargs_lookup.
  - intros url. repeat split; by kwargs_lookup.
  - intros url Hport. by rewrite kwargs_port, Hport.
Qed.

Lemma create_connect_args_example_and_port_default_witness :
  port bare_url = None
  ∧ (create_connect_args (DruidDialect_init None) bare_url).2 !! "port"
      = Some (KVal (VInt 8082)).
Proof.
  split; [reflexivity|].
  apply (proj2 (proj2 (create_connect_args_example_and_port_default
                         (DruidDialect_init None))) bare_url).
  reflexivity.
Defined.

(** C10. The defaults are taken for falsy fields, not only for absent
    ones: port [0] gives [8082], an empty user name or password gives
    [None]; in general each of the three defaults is taken whenever the
    field is falsy, and the field is kept whenever it is truthy. *)
Theorem create_connect_args_defaults_on_falsy (self : DruidDialect) (url : URL) :
  (port url = Some 0 →
     (create_connect_args self url).2 !! "port" = Some (KVal (VInt 8082)))
  ∧ (username url = Some "" →
     (create_connect_args self url).2 !! "user" = Some (KVal VNone))
  ∧ (password url = Some "" →
     (create_connect_args self url).2 !! "password" = Some (KVal VNone))
  ∧ (create_connect_args self url).2 !! "port"
      = Some (KVal (if truthy (of_opt_int (port url))
                    then of_opt_int (port url) else VInt 8082))
  ∧ (create_connect_args self url).2 !! "user"
      = Some (KVal (if truthy (of_opt_str (username url))
                    then of_opt_str (username url) else VNone))
  ∧ (create_connect_args self url).2 !! "password"
      = Some (KVal (if truthy (of_opt_str (password url))
                    then of_opt_str (password url) else VNone)).
Proof.
  rewrite kwargs_port, kwargs_user, kwargs_password.
  repeat split; try done; by intros ->.
Qed.

Lemma create_connect_args_defaults_on_falsy_witness :
  (port falsy_url = Some 0 ∧ username falsy_url = Some ""
   ∧ password falsy_url = Some "")
  ∧ (create_connect_args (DruidDialect_init None) falsy_url).2 !! "port"
      = Some (KVal (VInt 8082))
  ∧ (create_connect_args (DruidDialect_init None) falsy_url).2 !! "user"
      = Some (KVal VNone)
  ∧ (create_connect_args (DruidDialect_init None) falsy_url).2 !! "password"
      = Some (KVal VNone).
Proof.
  pose proof (create_connect_args_defaults_on_falsy
                (DruidDialect_init None) falsy_url) as (Hport & Huser & Hpw & _).
  split; [by repeat split|].
  split; [apply Hport|split; [apply Huser|apply Hpw]]; reflexivity.
Defined.

(** ** C3: column defaults *)

Lemma string_eqb_false (x y : string) : x ≠ y → String.eqb x y = false.
Proof. intros H. by apply String.eqb_neq. Qed.

(** C3. On the empty string [get_default] returns [None]; every
    non-empty string comes back unchanged, the string "None" included. *)
Theorem get_default_empty_or_unchanged :
  get_default (VStr "") = VNone
  ∧ (∀ x : string, x ≠ "" → get_default (VStr x) = VStr x)
  ∧ get_default (VStr "None") = VStr "None".
Proof.
  split; [reflexivity|]. split; [|reflexivity].
  intros x Hx. unfold get_default, py_ne, py_eq.
  by rewrite (string_eqb_false _ _ Hx).
Qed.

Lemma get_default_empty_or_unchanged_witness :
  "0" ≠ "" ∧ get_default (VStr "0") = VStr "0".
Proof.
  split; [discriminate|].
  apply (proj1 (proj2 get_default_empty_or_unchanged) "0"). discriminate.
Defined.

(** An argument that is not a string comes back as its [str] form. *)
Remark get_default_of_non_string :
  get_default VNone = VStr "None" ∧ get_default (VInt 0) = VStr "0".
Proof. by split. Qed.

(** ** C4: nullability *)

Lemma N_of_ascii_inj (a b : ascii) : N_of_ascii a = N_of_ascii b → a = b.
Proof.
  intros H. rewrite <- (ascii_N_embedding a), <- (ascii_N_embedding b).
  by rewrite H.
Qed.

Lemma N_of_lower_ascii (c : ascii) :
  N_of_ascii (lower_ascii c) =
    if ((65 <=? N_of_ascii c) && (N_of_ascii c <=? 90))%N
    then (N_of_ascii c + 32)%N else N_of_ascii c.
Proof.
  unfold lower_ascii. destruct (_ && _) eqn:Hup; [|done].
  apply andb_true_iff in Hup as [_ Hle%N.leb_le].
  apply N_ascii_embedding. lia.
Qed.

Lemma upper_test_true (c : ascii) :
  ((65 <=? N_of_ascii c) && (N_of_ascii c <=? 90))%N = true ↔ is_upper c.
Proof. unfold is_upper. by rewrite andb_true_iff, !N.leb_le. Qed.

Lemma upper_test_false (c : ascii) :
  ((65 <=? N_of_ascii c) && (N_of_ascii c <=? 90))%N = false ↔ ¬ is_upper c.
Proof. rewrite <- upper_test_true. by destruct (_ && _). Qed.

Lemma lower_ascii_same_letter (a b : ascii) :
  lower_ascii a = lower_ascii b ↔ same_letter a b.
Proof.
  unfold same_letter. split.
  - intros H%(f_equal N_of_ascii). rewrite !N_of_lower_ascii in H.
    destruct (_ && _) eqn:Ha in H; destruct (_ && _) eqn:Hb in H;
      rewrite ?upper_test_true, ?upper_test_false in Ha;
      rewrite ?upper_test_true, ?upper_test_false in Hb.
    + left. apply N_of_ascii_inj. lia.
    + right; left. by split.
    + right; right. by split.
    + left. by apply N_of_ascii_inj.
  - intros H. apply N_of_ascii_inj. rewrite !N_of_lower_ascii.
    destruct H as [->|[[Hup Hb]|[Hup Ha]]]; [done| |].
    + rewrite (proj2 (upper_test_true a) Hup).
      rewrite (proj2 (upper_test_false b)); [done|].
      unfold is_upper in *. lia.
    + rewrite (proj2 (upper_test_true b) Hup).
      rewrite (proj2 (upper_test_false a)); [done|].
      unfold is_upper in *. lia.
Qed.

(** Lower-casing identifies exactly the strings that are equal up to case. *)
Lemma lower_eq_ignore_case (s t : string) :
  lower s = lower t ↔ eq_ignore_case s t.
Proof.
  split.
  - revert t. induction s as [|a s IH]; intros [|b t] H; simpl in H;
      try discriminate.
    + constructor.
    + injection H as Hc Hr. constructor.
      * by apply lower_ascii_same_letter.
      * by apply IH.
  - induction 1 as [|a b s t Hab _ IH]; simpl; [done|].
    f_equal; [by apply lower_ascii_same_letter | done].
Qed.

(** C4. [get_is_nullable] answers true exactly for the strings that equal
    "yes" up to the case of their letters, which are the eight spellings
    of it; "NO", the empty string and "maybe" give false. *)
Theorem get_is_nullable_iff_yes :
  (∀ s : string, get_is_nullable s = true ↔ eq_ignore_case s "yes")
  ∧ (∀ s : string,
       get_is_nullable s = true ↔
       s ∈ ["yes"; "yeS"; "yEs"; "yES"; "Yes"; "YeS"; "YEs"; "YES"])
  ∧ get_is_nullable "NO" = false
  ∧ get_is_nullable "" = false
  ∧ get_is_nullable "maybe" = false.
Proof.
  assert (Hiff : ∀ s, get_is_nullable s = true ↔ eq_ignore_case s "yes").
  { intros s. unfold get_is_nullable. rewrite String.eqb_eq.
    change "yes" with (lower "yes") at 1. apply lower_eq_ignore_case. }
  split; [exact Hiff|]. split; [|by repeat split].
  intros s. split.
  - intros H%Hiff.
    inversion H as [|a1 b1 s1 t1 H1 R1]; subst.
    inversion R1 as [|a2 b2 s2 t2 H2 R2]; subst.
    inversion R2 as [|a3 b3 s3 t3 H3 R3]; subst.
    inversion R3; subst.
    apply lower_ascii_same_letter in H1, H2, H3.
    clear -H1 H2 H3. revert H1 H2 H3.
    destruct a1 as [[] [] [] [] [] [] [] []]; try discriminate; intros _;
      destruct a2 as [[] [] [] [] [] [] [] []]; try discriminate; intros _;
      destruct a3 as [[] [] [] [] [] [] [] []]; try discriminate; intros _;
      set_solver.
  - rewrite !elem_of_cons, elem_of_nil.
    intros H. repeat destruct H as [->|H]; try reflexivity. done.
Qed.

(** ** C5: schema names *)

Lemma reserved_schema_test (name : string) :
  py_in_list (VStr name) RESERVED_SCHEMAS
    = bool_decide (name = "INFORMATION_SCHEMA").
Proof.
  unfold py_in_list, RESERVED_SCHEMAS. simpl. rewrite orb_false_r.
  case_bool_decide as Hd.
  - by apply String.eqb_eq.
  - by apply String.eqb_neq.
Qed.

Lemma schema_names_of_filter (rows : list Row) (names : list string) :
  Forall2 (λ row name, row !! "SCHEMA_NAME" = Some (VStr name)) rows names →
  schema_names_of rows
    = ret (VStr <$> filter (λ name, name ≠ "INFORMATION_SCHEMA") names).
Proof.
  induction 1 as [|row name rows names Hrow _ IH]; [done|].
  cbn [schema_names_of].
  rewrite (getattr_Some _ _ _ Hrow), bind_ret_l, reserved_schema_test.
  case_bool_decide as Hd.
  - subst name. cbn [negb]. by rewrite IH, filter_cons_False by naive_solver.
  - cbn [negb]. rewrite bind_ret_l, IH, bind_ret_l.
    by rewrite filter_cons_True by done.
Qed.

(** C5. When the SCHEMATA query answers a sequence of rows,
    [get_schema_names] runs that one statement and returns the names of
    the rows, in their order and with their repetitions, without the
    occurrences of INFORMATION_SCHEMA. *)
Theorem get_schema_names_drops_information_schema
    (connection : Connection) (rows : list Row) (names : list string) :
  conn_execute connection "SELECT SCHEMA_NAME FROM INFORMATION_SCHEMA.SCHEMATA"
    = Return rows →
  Forall2 (λ row name, row !! "SCHEMA_NAME" = Some (VStr name)) rows names →
  get_schema_names connection
    = ([Executed "SELECT SCHEMA_NAME FROM INFORMATION_SCHEMA.SCHEMATA"],
       Return (VStr <$> filter (λ name, name ≠ "INFORMATION_SCHEMA") names)).
Proof.
  intros Hexec Hrows. unfold get_schema_names, execute, text, schemata_query.
  rewrite Hexec. cbn [bind]. by rewrite (schema_names_of_filter _ _ Hrows).
Qed.

Lemma get_schema_names_drops_information_schema_witness :
  get_schema_names (answering_connection example_schemata)
  = ([Executed "SELECT SCHEMA_NAME FROM INFORMATION_SCHEMA.SCHEMATA"],
     Return [VStr "druid"; VStr "sys"; VStr "information_schema"; VStr "druid"]).
Proof.
  apply (get_schema_names_drops_information_schema
           (answering_connection example_schemata) example_schemata
           ["druid"; "INFORMATION_SCHEMA"; "sys"; "information_schema"; "druid"]).
  - reflexivity.
  - repeat constructor.
Defined.

(** ** C6: type compiler *)

(** C6. Whatever the type descriptor, REAL is rendered as DOUBLE; the
    numeric and temporal family (NUMERIC, DECIMAL, INTEGER, SMALLINT,
    BIGINT, BOOLEAN, TIMESTAMP, DATE, DATETIME, TIME) as LONG; and the
    binary family (BLOB, CLOB, NCLOB, BINARY, VARBINARY) as COMPLEX. *)
Theorem type_compiler_literals (TypeEngine : Type) (type_ : TypeEngine) :
  DruidTypeCompiler.visit_REAL type_ = "DOUBLE"
  ∧ (DruidTypeCompiler.visit_DECIMAL type_ = "LONG"
     ∧ DruidTypeCompiler.visit_INTEGER type_ = "LONG"
     ∧ DruidTypeCompiler.visit_BOOLEAN type_ = "LONG"
     ∧ DruidTypeCompiler.visit_DECIMAL type_ = DruidTypeCompiler.visit_INTEGER type_
     ∧ DruidTypeCompiler.visit_INTEGER type_ = DruidTypeCompiler.visit_BOOLEAN type_)
  ∧ (DruidTypeCompiler.visit_NUMERIC type_ = "LONG"
     ∧ DruidTypeCompiler.visit_SMALLINT type_ = "LONG"
     ∧ DruidTypeCompiler.visit_BIGINT type_ = "LONG"
     ∧ DruidTypeCompiler.visit_TIMESTAMP type_ = "LONG"
     ∧ DruidTypeCompiler.visit_DATE type_ = "LONG"
     ∧ DruidTypeCompiler.visit_DATETIME type_ = "LONG"
     ∧ DruidTypeCompiler.visit_TIME type_ = "LONG")
  ∧ (DruidTypeCompiler.visit_BLOB type_ = "COMPLEX"
     ∧ DruidTypeCompiler.visit_CLOB type_ = "COMPLEX"
     ∧ DruidTypeCompiler.visit_NCLOB type_ = "COMPLEX"
     ∧ DruidTypeCompiler.visit_BINARY type_ = "COMPLEX"
     ∧ DruidTypeCompiler.visit_VARBINARY type_ = "COMPLEX").
Proof. repeat split. Qed.

(** ** C7: identifier preparer *)

(** C7. The membership test of the preparer's reserved words answers
    true for every item: for every string, the empty one, one with
    white space and an SQL keyword among them; so the quoting test, which
    asks the reserved words first, reports every identifier as needing
    quotes, whatever its other tests would say. *)
Theorem reserved_words_contain_everything :
  (∀ (A : Type) (item : A), __contains__ reserved_words item = true)
  ∧ (∀ s : string, __contains__ reserved_words s = true)
  ∧ __contains__ reserved_words "" = true
  ∧ __contains__ reserved_words "my table" = true
  ∧ __contains__ reserved_words "select" = true
  ∧ (∀ (other_tests : string → outcome bool) (identifier : string),
       requires_quotes other_tests identifier = Return true).
Proof. repeat split. Qed.

(** ** C8: liveness check *)

(** C8 as stated fails: when the probe is interrupted from the keyboard,
    the statement has raised, yet [do_ping] does not return false; the
    interrupt reaches the caller. *)
Lemma do_ping_propagates_keyboard_interrupt :
  conn_execute interrupted_connection "SELECT 1" = Raise KeyboardInterrupt
  ∧ do_ping interrupted_connection
      = ([Executed "SELECT 1"], Raise KeyboardInterrupt)
  ∧ (do_ping interrupted_connection).2 ≠ Return false.
Proof. repeat split. discriminate. Qed.

(** C8, amended. [do_ping] runs SELECT 1 on the connection, and nothing
    else; it returns true when the statement succeeds; when the statement
    raises an instance of [Exception] it returns false and the exception
    is dropped; an exception outside [Exception] is left to the caller. *)
Theorem do_ping_catches_Exception (dbapi_connection : Connection) :
  (∀ rows : list Row,
     conn_execute dbapi_connection "SELECT 1" = Return rows →
     do_ping dbapi_connection = ([Executed "SELECT 1"], Return true))
  ∧ (∀ e : exn,
     conn_execute dbapi_connection "SELECT 1" = Raise e →
     isinstance_Exception e = true →
     do_ping dbapi_connection = ([Executed "SELECT 1"], Return false))
  ∧ (∀ e : exn,
     conn_execute dbapi_connection "SELECT 1" = Raise e →
     isinstance_Exception e = false →
     do_ping dbapi_connection = ([Executed "SELECT 1"], Raise e)).
Proof.
  unfold do_ping, execute, try_except_Exception, bind, ret.
  repeat split; intros ? Hexec; rewrite Hexec; [done| |]; by intros ->.
Qed.

Lemma do_ping_catches_Exception_witness :
  do_ping (answering_connection [ {[ "EXPR$0" := VInt 1 ]} ])
    = ([Executed "SELECT 1"], Return true)
  ∧ do_ping failing_connection = ([Executed "SELECT 1"], Return false).
Proof.
  split.
  - apply (proj1 (do_ping_catches_Exception _) [ {[ "EXPR$0" := VInt 1 ]} ]).
    reflexivity.
  - apply (proj1 (proj2 (do_ping_catches_Exception _))
             (OtherException "ConnectionError" "refused")); reflexivity.
Defined.

(** ** C9: table existence *)

(** C9. [has_table] runs one statement: the row-count query whose only
    filter compares TABLE_NAME with the table name as it was given; its
    result is the [exists_] field of the first row; and the statement,
    the result and a failure alike are the same for any two schema
    arguments. *)
Theorem has_table_ignores_schema (connection : Connection) (table_name : string) :
  (∀ schema : pyval,
     (has_table connection table_name schema).1
       = [Executed (nl +:+ "            SELECT COUNT(*) > 0 AS exists_"
                    +:+ nl +:+ "              FROM INFORMATION_SCHEMA.TABLES"
                    +:+ nl +:+ "             WHERE TABLE_NAME = '"
                    +:+ table_name +:+ "'" +:+ nl +:+ "        ")])
  ∧ (∀ (schema : pyval) (row : Row) (rest : list Row) (answer : pyval),
       conn_execute connection (has_table_query table_name)
         = Return (row :: rest) →
       row !! "exists_" = Some answer →
       (has_table connection table_name schema).2 = Return answer)
  ∧ (∀ schema1 schema2 : pyval,
       has_table connection table_name schema1
         = has_table connection table_name schema2).
Proof.
  split; [|split].
  - intros schema. unfold has_table, execute, text, bind.
    destruct (conn_execute _ _) as [[|row rest]|e]; simpl; try done.
    unfold getattr. by destruct (row !! "exists_").
  - intros schema row rest answer Hexec Hrow.
    unfold has_table, execute, text, bind. rewrite Hexec. simpl.
    unfold getattr. by rewrite Hrow.
  - reflexivity.
Qed.

Lemma has_table_ignores_schema_witness :
  (has_table (answering_connection [ {[ "exists_" := VBool true ]} ])
     "wikipedia" (VStr "druid")).2 = Return (VBool true).
Proof.
  apply (proj1 (proj2 (has_table_ignores_schema _ "wikipedia"))
           (VStr "druid") {[ "exists_" := VBool true ]} []); reflexivity.
Defined.

(** * Further properties of the module *)

(** ** The type mapper on any row *)

Lemma map_jdbc_type_eval (filters : warnings_filter) (row : Row) (name code : pyval) :
  row !! "JDBC_TYPE" = Some code →
  row !! "COLUMN_NAME" = Some name →
  _map_jdbc_type filters row =
    match mapped_type row with
    | Some ty => ([], Return ty)
    | None =>
        ([Warned (unmapped_warning name code)],
         if turns_into_error filters (unmapped_warning name code)
         then Raise (SAWarning (unmapped_warning name code))
         else Return NullType)
    end.
Proof.
  intros Hcode Hname. unfold _map_jdbc_type, mapped_type.
  rewrite (getattr_Some _ _ _ Hcode), (getattr_Some _ _ _ Hname), Hcode.
  rewrite bind_ret_l.
  destruct (int_key code) as [key|]; cbn [mbind option_bind];
    [destruct (jdbc_type_map !! key)|];
    by rewrite ?bind_ret_l, ?warn_then_ret.
Qed.


Lemma jdbc_type_map_not_null (key : Z) (ty : sa_type) :
  jdbc_type_map !! key = Some ty → ty ≠ NullType.
Proof.
  rewrite jdbc_type_map_documented. unfold documented_jdbc_type.
  repeat case_decide; congruence.
Qed.

(** X1. Under every warnings filter, the mapper answers the null type
    exactly when it has warned, once; a type from the table comes
    without any warning. *)
Theorem map_jdbc_type_null_iff_warned
    (filters : warnings_filter) (row : Row) (log : list event) (ty : sa_type) :
  _map_jdbc_type filters row = (log, Return ty) →
  (ty = NullType ∧ ∃ msg : string, log = [Warned msg])
  ∨ (ty ≠ NullType ∧ log = []).
Proof.
  unfold _map_jdbc_type, getattr.
  destruct (row !! "JDBC_TYPE") as [code|]; [|done]. rewrite bind_ret_l.
  destruct (int_key code ≫= _) as [ty'|] eqn:Hty.
  - intros [= <- <-]. right. split; [|done].
    destruct (int_key code) as [key|]; [|done].
    by apply (jdbc_type_map_not_null key).
  - destruct (row !! "COLUMN_NAME") as [name|]; [|done].
    rewrite !bind_ret_l, warn_then_ret.
    destruct (turns_into_error filters _); [done|].
    intros [= <- <-]. left. eauto.
Qed.

Lemma map_jdbc_type_null_iff_warned_witness :
  (NullType = NullType
   ∧ ∃ msg : string,
       [Warned "Failed to map column 'tags' with JDBC type '2003' to a sqlalchemy type."]
         = [Warned msg])
  ∨ (NullType ≠ NullType
     ∧ [Warned "Failed to map column 'tags' with JDBC type '2003' to a sqlalchemy type."]
         = []).
Proof.
  apply (map_jdbc_type_null_iff_warned default_filter
           (list_to_map [("COLUMN_NAME", VStr "tags"); ("JDBC_TYPE", VInt 2003)])).
  reflexivity.
Defined.

(** X2. Under every warnings filter, a row without a type code makes
    the mapper raise; so does a row whose code has no entry and which
    has no column name, before any warning is emitted; a row whose code
    has an entry needs no column name. *)
Theorem map_jdbc_type_missing_fields (filters : warnings_filter) (row : Row) :
  (row !! "JDBC_TYPE" = None →
     _map_jdbc_type filters row = ([], Raise (AttributeError "JDBC_TYPE")))
  ∧ (is_Some (row !! "JDBC_TYPE") → mapped_type row = None →
     row !! "COLUMN_NAME" = None →
     _map_jdbc_type filters row = ([], Raise (AttributeError "COLUMN_NAME")))
  ∧ (∀ ty : sa_type, mapped_type row = Some ty →
     _map_jdbc_type filters row = ([], Return ty)).
Proof.
  unfold _map_jdbc_type, mapped_type, getattr. repeat split.
  - by intros ->.
  - intros [code ->] Hty ->. rewrite bind_ret_l.
    by destruct (int_key code); cbn [mbind option_bind]; rewrite ?Hty.
  - intros ty. destruct (row !! "JDBC_TYPE") as [code|]; [|done].
    rewrite bind_ret_l.
    destruct (int_key code); cbn [mbind option_bind]; intros H; [|done].
    by rewrite H.
Qed.

Lemma map_jdbc_type_missing_fields_witness :
  _map_jdbc_type error_filter {[ "COLUMN_NAME" := VStr "tags" ]}
    = ([], Raise (AttributeError "JDBC_TYPE"))
  ∧ _map_jdbc_type error_filter {[ "JDBC_TYPE" := VInt 2003 ]}
    = ([], Raise (AttributeError "COLUMN_NAME"))
  ∧ _map_jdbc_type error_filter {[ "JDBC_TYPE" := VInt 12 ]}
    = ([], Return String_).
Proof.
  split; [|split].
  - apply (proj1 (map_jdbc_type_missing_fields _ _)). reflexivity.
  - apply (proj1 (proj2 (map_jdbc_type_missing_fields _ _)));
      [by eexists | reflexivity | reflexivity].
  - apply (proj2 (proj2 (map_jdbc_type_missing_fields _ _))). reflexivity.
Defined.

(** X3. A type code is looked up as it is: a code that is a string,
    even the digits of a code of the table, or that is [None], has no
    entry; the mapper calls [util.warn] once, with the code as [str]
    prints it, and answers the null type unless the warnings filter
    turns that warning into an error, which is then raised. *)
Theorem map_jdbc_type_no_coercion
    (filters : warnings_filter) (row : Row) (name code : pyval) (msg : string) :
  code = VNone ∨ (∃ s : string, code = VStr s) →
  row !! "JDBC_TYPE" = Some code →
  row !! "COLUMN_NAME" = Some name →
  msg = "Failed to map column '" +:+ py_str name
        +:+ "' with JDBC type '" +:+ py_str code
        +:+ "' to a sqlalchemy type." →
  _map_jdbc_type filters row =
    ([Warned msg],
     if turns_into_error filters msg then Raise (SAWarning msg)
     else Return NullType).
Proof.
  intros Hcode Hrow Hname ->.
  rewrite (map_jdbc_type_eval _ _ _ _ Hrow Hname). unfold mapped_type.
  rewrite Hrow. by destruct Hcode as [->|[s ->]].
Qed.

Lemma map_jdbc_type_no_coercion_witness :
  _map_jdbc_type default_filter
    (list_to_map [("COLUMN_NAME", VStr "n"); ("JDBC_TYPE", VStr "4")])
    = ([Warned "Failed to map column 'n' with JDBC type '4' to a sqlalchemy type."],
       Return NullType)
  ∧ _map_jdbc_type error_filter
      (list_to_map [("COLUMN_NAME", VStr "n"); ("JDBC_TYPE", VStr "4")])
    = ([Warned "Failed to map column 'n' with JDBC type '4' to a sqlalchemy type."],
       Raise (SAWarning
                "Failed to map column 'n' with JDBC type '4' to a sqlalchemy type.")).
Proof.
  split.
  - apply (map_jdbc_type_no_coercion default_filter _ (VStr "n") (VStr "4")
             "Failed to map column 'n' with JDBC type '4' to a sqlalchemy type.");
      [right; by eexists | reflexivity | reflexivity | reflexivity].
  - apply (map_jdbc_type_no_coercion error_filter _ (VStr "n") (VStr "4")
             "Failed to map column 'n' with JDBC type '4' to a sqlalchemy type.");
      [right; by eexists | reflexivity | reflexivity | reflexivity].
Defined.

(** ** Columns *)

Lemma bind_log {A B} (log : list event) (a : A) (k : A → W B) :
  bind (log, Return a) k = ((log ++ (k a).1), (k a).2).
Proof. unfold bind. by destruct (k a). Qed.

Lemma unmapped_message_eval (row : Row) (name code : pyval) :
  row !! "COLUMN_NAME" = Some name →
  row !! "JDBC_TYPE" = Some code →
  unmapped_message row =
    match mapped_type row with
    | Some _ => None
    | None => Some (unmapped_warning name code)
    end.
Proof. intros Hname Hcode. unfold unmapped_message. by rewrite Hname, Hcode. Qed.

(** What [column_of] does on a row with a name and a type code, up to
    the point where the mapper has answered. *)
Lemma column_of_describable (filters : warnings_filter) (row : Row) :
  describable row →
  ∃ (name code d : pyval) (s : string),
    row !! "COLUMN_NAME" = Some name
    ∧ row !! "JDBC_TYPE" = Some code
    ∧ row !! "IS_NULLABLE" = Some (VStr s)
    ∧ row !! "COLUMN_DEFAULT" = Some d
    ∧ column_of filters row =
        match unmapped_message row with
        | None =>
            ([], Return {| col_name := name;
                           col_type := default NullType (mapped_type row);
                           col_nullable := get_is_nullable s;
                           col_default := get_default d |})
        | Some msg =>
            ([Warned msg],
             if turns_into_error filters msg then Raise (SAWarning msg)
             else Return {| col_name := name;
                            col_type := default NullType (mapped_type row);
                            col_nullable := get_is_nullable s;
                            col_default := get_default d |})
        end.
Proof.
  intros ([name Hname] & [code Hcode] & [s Hs] & [d Hd]).
  exists name, code, d, s. repeat split; try done.
  unfold column_of.
  rewrite (getattr_Some _ _ _ Hname), bind_ret_l.
  rewrite (map_jdbc_type_eval _ _ _ _ Hcode Hname).
  rewrite (unmapped_message_eval _ _ _ Hname Hcode).
  rewrite (getattr_Some _ _ _ Hs), (getattr_Some _ _ _ Hd).
  destruct (mapped_type row) as [ty|].
  - rewrite bind_log. cbn [call_get_is_nullable]. by rewrite !bind_ret_l.
  - destruct (turns_into_error filters _); [done|].
    rewrite bind_log. cbn [call_get_is_nullable]. by rewrite !bind_ret_l.
Qed.



Lemma columns_of_describable (filters : warnings_filter) (rows : list Row) :
  Forall describable rows →
  Forall (quiet filters) rows →
  ∃ (msgs : list string) (cols : list column),
    columns_of filters rows = (Warned <$> msgs, Return cols)
    ∧ length msgs = length (filter (λ row, mapped_type row = None) rows)
    ∧ Forall2 (λ row col,
         row !! "COLUMN_NAME" = Some (col_name col)
         ∧ col_type col = default NullType (mapped_type row)
         ∧ (∃ s : string, row !! "IS_NULLABLE" = Some (VStr s)
                          ∧ col_nullable col = get_is_nullable s)
         ∧ (∃ d : pyval, row !! "COLUMN_DEFAULT" = Some d
                         ∧ col_default col = get_default d))
        rows cols.
Proof.
  induction 1 as [|row rows Hrow _ IH]; intros Hquiet.
  { by exists [], []. }
  apply Forall_cons in Hquiet as [Hq Hquiet].
  destruct (IH Hquiet) as (msgs & cols & Hcols & Hlen & Hall).
  destruct (column_of_describable filters row Hrow)
    as (name & code & d & s & Hname & Hcode & Hs & Hd & Hcol).
  cbn [columns_of]. rewrite Hcol.
  pose proof (unmapped_message_eval _ _ _ Hname Hcode) as Hmsg.
  destruct (mapped_type row) as [ty|] eqn:Hty; rewrite Hmsg.
  - rewrite bind_log, Hcols, bind_log. simpl.
    exists msgs, ({| col_name := name; col_type := ty;
                     col_nullable := get_is_nullable s;
                     col_default := get_default d |} :: cols).
    rewrite app_nil_r, filter_cons_False by (by rewrite Hty).
    repeat split; try done. constructor; [|done]. simpl.
    rewrite Hty. eauto 10.
  - rewrite (Hq _ Hmsg), bind_log, Hcols, bind_log. simpl.
    exists (unmapped_warning name code :: msgs),
           ({| col_name := name; col_type := NullType;
               col_nullable := get_is_nullable s;
               col_default := get_default d |} :: cols).
    rewrite app_nil_r, filter_cons_True by done.
    repeat split; [by simpl; rewrite Hlen|]. constructor; [|done]. simpl.
    rewrite Hty. eauto 10.
Qed.


(** X4. For rows whose fields are [None], booleans, integers or
    strings: when every row of the answer has the four fields and a
    string in [IS_NULLABLE], and the warnings filter turns the warning
    of no row into an error, [get_columns] does not raise: it returns
    one description per row, in the order of the rows, with the name
    and the default as the row has them, the type of the table or the
    null type, and the nullability of [get_is_nullable]. *)
Theorem get_columns_describes_every_row
    (filters : warnings_filter) (connection : Connection)
    (table_name : string) (schema : pyval) (rows : list Row) :
  conn_execute connection (columns_query table_name schema) = Return rows →
  Forall describable rows →
  Forall (quiet filters) rows →
  ∃ cols : list column,
    (get_columns filters connection table_name schema).2 = Return cols
    ∧ length cols = length rows
    ∧ Forall2 (λ row col,
         row !! "COLUMN_NAME" = Some (col_name col)
         ∧ col_type col = default NullType (mapped_type row)
         ∧ (∃ s : string, row !! "IS_NULLABLE" = Some (VStr s)
                          ∧ col_nullable col = get_is_nullable s)
         ∧ (∃ d : pyval, row !! "COLUMN_DEFAULT" = Some d
                         ∧ col_default col = get_default d))
        rows cols.
Proof.
  intros Hexec Hrows Hquiet.
  destruct (columns_of_describable filters rows Hrows Hquiet)
    as (msgs & cols & Hcols & _ & Hall).
  exists cols. unfold get_columns, execute, text. rewrite Hexec, bind_log, Hcols.
  repeat split; [|done]. symmetry. by eapply Forall2_length.
Qed.

(** X5. Under the same conditions the log of [get_columns] is its one
    statement followed by calls of [util.warn] only, one for each row
    whose type code has no entry in the table. *)
Theorem get_columns_warns_once_per_unmapped_row
    (filters : warnings_filter) (connection : Connection)
    (table_name : string) (schema : pyval) (rows : list Row) :
  conn_execute connection (columns_query table_name schema) = Return rows →
  Forall describable rows →
  Forall (quiet filters) rows →
  ∃ msgs : list string,
    (get_columns filters connection table_name schema).1
      = Executed (columns_query table_name schema) :: (Warned <$> msgs)
    ∧ length msgs = length (filter (λ row, mapped_type row = None) rows).
Proof.
  intros Hexec Hrows Hquiet.
  destruct (columns_of_describable filters rows Hrows Hquiet)
    as (msgs & cols & Hcols & Hlen & _).
  exists msgs. unfold get_columns, execute, text.
  by rewrite Hexec, bind_log, Hcols.
Qed.


(** X21. A row with a name and a type code that has no entry, whose
    warning the filter turns into an error, ends [get_columns] when all
    rows before it are mapped and complete: the warning is raised after
    the one statement and the one call of [util.warn], and neither the
    rows before nor the rows after are described. *)
Theorem get_columns_stops_at_first_error
    (filters : warnings_filter) (connection : Connection)
    (table_name : string) (schema : pyval)
    (before after : list Row) (row : Row) (name code : pyval) :
  conn_execute connection (columns_query table_name schema)
    = Return (before ++ row :: after) →
  Forall describable before →
  Forall (λ r, is_Some (mapped_type r)) before →
  row !! "COLUMN_NAME" = Some name →
  row !! "JDBC_TYPE" = Some code →
  mapped_type row = None →
  turns_into_error filters (unmapped_warning name code) = true →
  get_columns filters connection table_name schema
    = ([Executed (columns_query table_name schema);
        Warned (unmapped_warning name code)],
       Raise (SAWarning (unmapped_warning name code))).
Proof.
  intros Hexec Hdesc Hmapped Hname Hcode Hty Herr.
  unfold get_columns, execute, text. rewrite Hexec, bind_log.
  assert (columns_of filters (before ++ row :: after)
            = ([Warned (unmapped_warning name code)],
               Raise (SAWarning (unmapped_warning name code)))) as ->; [|done].
  clear Hexec. revert Hmapped.
  induction Hdesc as [|r before Hr _ IH]; intros Hmapped; cbn [app columns_of].
  - unfold column_of.
    rewrite (getattr_Some _ _ _ Hname), bind_ret_l.
    by rewrite (map_jdbc_type_eval _ _ _ _ Hcode Hname), Hty, Herr.
  - apply Forall_cons in Hmapped as [[ty Hr_ty] Hmapped].
    destruct (column_of_describable filters r Hr)
      as (n & c & d & s & Hn & Hc & _ & _ & Hcol).
    rewrite Hcol, (unmapped_message_eval _ _ _ Hn Hc), Hr_ty.
    by rewrite bind_log, (IH Hmapped).
Qed.

Lemma example_columns_describable : Forall describable example_columns.
Proof.
  repeat constructor; unfold describable;
    repeat split; by eexists.
Qed.

Lemma example_columns_quiet : Forall (quiet default_filter) example_columns.
Proof. repeat constructor. Qed.

Lemma get_columns_describes_every_row_witness :
  ∃ cols : list column,
    (get_columns default_filter (answering_connection example_columns)
       "wikipedia" VNone).2
      = Return cols
    ∧ length cols = length example_columns
    ∧ Forall2 (λ row col,
         row !! "COLUMN_NAME" = Some (col_name col)
         ∧ col_type col = default NullType (mapped_type row)
         ∧ (∃ s : string, row !! "IS_NULLABLE" = Some (VStr s)
                          ∧ col_nullable col = get_is_nullable s)
         ∧ (∃ d : pyval, row !! "COLUMN_DEFAULT" = Some d
                         ∧ col_default col = get_default d))
        example_columns cols.
Proof.
  apply (get_columns_describes_every_row default_filter
           (answering_connection example_columns) "wikipedia" VNone
           example_columns).
  - reflexivity.
  - exact example_columns_describable.
  - exact example_columns_quiet.
Defined.

Lemma get_columns_warns_once_per_unmapped_row_witness :
  ∃ msgs : list string,
    (get_columns default_filter (answering_connection example_columns)
       "wikipedia" VNone).1
      = Executed (columns_query "wikipedia" VNone) :: (Warned <$> msgs)
    ∧ length msgs
        = length (filter (λ row, mapped_type row = None) example_columns).
Proof.
  apply (get_columns_warns_once_per_unmapped_row default_filter
           (answering_connection example_columns) "wikipedia" VNone
           example_columns).
  - reflexivity.
  - exact example_columns_describable.
  - exact example_columns_quiet.
Defined.


Lemma get_columns_stops_at_first_error_witness :
  get_columns error_filter
    (answering_connection (example_columns ++ [nullable_none_row]))
    "wikipedia" VNone
  = ([Executed (columns_query "wikipedia" VNone);
      Warned "Failed to map column 'tags' with JDBC type '2003' to a sqlalchemy type."],
     Raise (SAWarning
              "Failed to map column 'tags' with JDBC type '2003' to a sqlalchemy type.")).
Proof.
  apply (get_columns_stops_at_first_error error_filter
           (answering_connection (example_columns ++ [nullable_none_row]))
           "wikipedia" VNone
           [ list_to_map [ ("COLUMN_NAME", VStr "__time"); ("JDBC_TYPE", VInt 93);
                           ("IS_NULLABLE", VStr "NO");
                           ("COLUMN_DEFAULT", VStr "") ] ]
           [nullable_none_row]
           (list_to_map [ ("COLUMN_NAME", VStr "tags"); ("JDBC_TYPE", VInt 2003);
                          ("IS_NULLABLE", VStr "YES");
                          ("COLUMN_DEFAULT", VStr "") ])
           (VStr "tags") (VInt 2003)).
  - reflexivity.
  - repeat constructor; unfold describable; repeat split; by eexists.
  - repeat constructor. by eexists.
  - reflexivity.
  - reflexivity.
  - reflexivity.
  - reflexivity.
Defined.

(** ** Errors of the driver *)

(** X7. The four methods that query the information schema do not handle
    an error of the driver: when the statement raises, the method raises
    the same exception, after that one statement and nothing else,
    under every warnings filter. *)
Theorem introspection_propagates_driver_errors
    (filters : warnings_filter) (connection : Connection)
    (table_name : string) (schema : pyval) (e : exn) :
  (conn_execute connection schemata_query = Raise e →
     get_schema_names connection = ([Executed schemata_query], Raise e))
  ∧ (conn_execute connection (has_table_query table_name) = Raise e →
     has_table connection table_name schema
       = ([Executed (has_table_query table_name)], Raise e))
  ∧ (conn_execute connection (table_names_query schema) = Raise e →
     get_table_names connection schema
       = ([Executed (table_names_query schema)], Raise e))
  ∧ (conn_execute connection (columns_query table_name schema) = Raise e →
     get_columns filters connection table_name schema
       = ([Executed (columns_query table_name schema)], Raise e)).
Proof.
  unfold get_schema_names, has_table, get_table_names, get_columns,
    execute, text, bind.
  repeat split; by intros ->.
Qed.

Lemma introspection_propagates_driver_errors_witness :
  get_schema_names failing_connection
    = ([Executed schemata_query],
       Raise (OtherException "ConnectionError" "refused"))
  ∧ has_table failing_connection "wikipedia" VNone
    = ([Executed (has_table_query "wikipedia")],
       Raise (OtherException "ConnectionError" "refused"))
  ∧ get_table_names failing_connection (VStr "druid")
    = ([Executed (table_names_query (VStr "druid"))],
       Raise (OtherException "ConnectionError" "refused"))
  ∧ get_columns default_filter failing_connection "wikipedia" VNone
    = ([Executed (columns_query "wikipedia" VNone)],
       Raise (OtherException "ConnectionError" "refused")).
Proof.
  pose proof (introspection_propagates_driver_errors default_filter
                failing_connection "wikipedia" VNone
                (OtherException "ConnectionError" "refused"))
    as (Hs & Ht & _ & Hc).
  pose proof (introspection_propagates_driver_errors default_filter
                failing_connection "wikipedia" (VStr "druid")
                (OtherException "ConnectionError" "refused"))
    as (_ & _ & Hn & _).
  split; [by apply Hs|]. split; [by apply Ht|]. split; [by apply Hn|by apply Hc].
Defined.

(** ** Table existence on an unexpected answer *)

(** X8. [has_table] raises an attribute error when the answer has no row,
    and when its first row has no [exists_] field; rows after the first
    are not read. *)
Theorem has_table_raises_without_first_row
    (connection : Connection) (table_name : string) (schema : pyval) :
  (conn_execute connection (has_table_query table_name) = Return [] →
     (has_table connection table_name schema).2
       = Raise (AttributeError "exists_"))
  ∧ (∀ (row : Row) (rest : list Row),
       conn_execute connection (has_table_query table_name)
         = Return (row :: rest) →
       row !! "exists_" = None →
       (has_table connection table_name schema).2
         = Raise (AttributeError "exists_")).
Proof.
  unfold has_table, execute, text, bind. split.
  - by intros ->.
  - intros row rest -> Hrow. simpl. unfold getattr. by rewrite Hrow.
Qed.

Lemma has_table_raises_without_first_row_witness :
  (has_table (answering_connection []) "wikipedia" VNone).2
    = Raise (AttributeError "exists_")
  ∧ (has_table
       (answering_connection [ {[ "EXPR$0" := VBool true ]};
                               {[ "exists_" := VBool true ]} ])
       "wikipedia" VNone).2
    = Raise (AttributeError "exists_").
Proof.
  split.
  - apply (proj1 (has_table_raises_without_first_row _ _ _)). reflexivity.
  - apply (proj2 (has_table_raises_without_first_row _ _ _)
             {[ "EXPR$0" := VBool true ]} [ {[ "exists_" := VBool true ]} ]);
      reflexivity.
Defined.

(** ** Table names *)

Lemma table_names_of_all (rows : list Row) (names : list pyval) :
  Forall2 (λ row name, row !! "TABLE_NAME" = Some name) rows names →
  table_names_of rows = ret names.
Proof.
  induction 1 as [|row name rows names Hrow _ IH]; [done|].
  cbn [table_names_of].
  by rewrite (getattr_Some _ _ _ Hrow), bind_ret_l, IH, bind_ret_l.
Qed.

(** X9. [get_table_names] returns the name of every row of the answer, in
    the order of the rows and without leaving any out (the tables of
    the reserved schema included); the statement has the schema filter
    exactly when the schema argument is truthy. *)
Theorem get_table_names_returns_every_row
    (connection : Connection) (schema : pyval)
    (rows : list Row) (names : list pyval) :
  conn_execute connection (table_names_query schema) = Return rows →
  Forall2 (λ row name, row !! "TABLE_NAME" = Some name) rows names →
  get_table_names connection schema
    = ([Executed
          (if truthy schema
           then "SELECT TABLE_NAME FROM INFORMATION_SCHEMA.TABLES"
                +:+ " WHERE TABLE_SCHEMA = '" +:+ py_str schema +:+ "'"
           else "SELECT TABLE_NAME FROM INFORMATION_SCHEMA.TABLES")],
       Return names).
Proof.
  intros Hexec Hrows. unfold get_table_names, execute, text.
  rewrite Hexec, bind_log, (table_names_of_all _ _ Hrows). simpl.
  unfold table_names_query. by destruct (truthy schema).
Qed.

Lemma get_table_names_returns_every_row_witness :
  get_table_names
    (answering_connection [ {[ "TABLE_NAME" := VStr "wikipedia" ]};
                            {[ "TABLE_NAME" := VStr "SCHEMATA" ]};
                            {[ "TABLE_NAME" := VStr "wikipedia" ]} ])
    (VStr "druid")
  = ([Executed
        "SELECT TABLE_NAME FROM INFORMATION_SCHEMA.TABLES WHERE TABLE_SCHEMA = 'druid'"],
     Return [VStr "wikipedia"; VStr "SCHEMATA"; VStr "wikipedia"]).
Proof.
  apply (get_table_names_returns_every_row
           (answering_connection [ {[ "TABLE_NAME" := VStr "wikipedia" ]};
                                   {[ "TABLE_NAME" := VStr "SCHEMATA" ]};
                                   {[ "TABLE_NAME" := VStr "wikipedia" ]} ])
           (VStr "druid")
           [ {[ "TABLE_NAME" := VStr "wikipedia" ]};
             {[ "TABLE_NAME" := VStr "SCHEMATA" ]};
             {[ "TABLE_NAME" := VStr "wikipedia" ]} ]
           [VStr "wikipedia"; VStr "SCHEMATA"; VStr "wikipedia"]).
  - reflexivity.
  - repeat constructor.
Defined.



(** ** Schema names on any answer *)

Lemma py_eq_str (v : pyval) (s : string) : py_eq v (VStr s) = true ↔ v = VStr s.
Proof.
  destruct v as [| | |x]; simpl; try (split; [discriminate|congruence]).
  rewrite String.eqb_eq. split; congruence.
Qed.

Lemma bind_Return_inv {A B} (m : W A) (k : A → W B) (log : list event) (b : B) :
  bind m k = (log, Return b) →
  ∃ (log1 log2 : list event) (a : A),
    m = (log1, Return a) ∧ k a = (log2, Return b) ∧ log = log1 ++ log2.
Proof.
  destruct m as [log1 [a|e]]; simpl; [|done].
  destruct (k a) as [log2 r] eqn:Hk. intros [= <- ->]. by exists log1, log2, a.
Qed.

Lemma schema_names_of_sound (rows : list Row) (log : list event) (names : list pyval) :
  schema_names_of rows = (log, Return names) →
  (VStr "INFORMATION_SCHEMA" ∉ names)
  ∧ names ⊆ omap (λ row : Row, row !! "SCHEMA_NAME") rows
  ∧ (length names ≤ length rows)%nat.
Proof.
  revert log names. induction rows as [|row rows IH]; intros log names.
  { intros [= <- <-]. split; [apply not_elem_of_nil|]. by split. }
  cbn [schema_names_of]. unfold getattr at 1.
  destruct (row !! "SCHEMA_NAME") as [v|] eqn:Hv; [|done].
  rewrite bind_ret_l.
  destruct (py_in_list v RESERVED_SCHEMAS) eqn:Hres; cbn [negb].
  - intros Hrest. destruct (IH _ _ Hrest) as (Hno & Hsub & Hlen).
    split; [done|]. cbn [omap list_omap]. rewrite Hv.
    split; [|simpl; lia]. intros x Hx. right. by apply Hsub.
  - rewrite (getattr_Some _ _ _ Hv), bind_ret_l.
    intros Hb. apply bind_Return_inv in Hb
      as (log1 & log2 & items & Hrest & Hcons & _).
    injection Hcons as _ <-.
    destruct (IH _ _ Hrest) as (Hno & Hsub & Hlen).
    cbn [omap list_omap]. rewrite Hv. split; [|split].
    + apply not_elem_of_cons. split; [|done]. intros <-.
      unfold py_in_list, RESERVED_SCHEMAS in Hres. simpl in Hres. discriminate.
    + intros x [->|Hx]%elem_of_cons; [left|right; by apply Hsub].
    + simpl. lia.
Qed.

(** X11. Whatever the rows of the answer hold, a list that
    [get_schema_names] returns does not contain INFORMATION_SCHEMA, is
    made of names of the rows only, and is not longer than the answer. *)
Theorem get_schema_names_never_reserved
    (connection : Connection) (rows : list Row) (names : list pyval) :
  conn_execute connection schemata_query = Return rows →
  (get_schema_names connection).2 = Return names →
  (VStr "INFORMATION_SCHEMA" ∉ names)
  ∧ names ⊆ omap (λ row : Row, row !! "SCHEMA_NAME") rows
  ∧ (length names ≤ length rows)%nat.
Proof.
  intros Hexec. unfold get_schema_names, execute, text.
  rewrite Hexec, bind_log. simpl.
  destruct (schema_names_of rows) as [log r] eqn:Hnames. simpl.
  intros ->. by eapply schema_names_of_sound.
Qed.

Lemma get_schema_names_never_reserved_witness :
  (VStr "INFORMATION_SCHEMA"
     ∉ [VStr "druid"; VStr "sys"; VStr "information_schema"; VStr "druid"])
  ∧ [VStr "druid"; VStr "sys"; VStr "information_schema"; VStr "druid"]
      ⊆ omap (λ row : Row, row !! "SCHEMA_NAME") example_schemata
  ∧ (length [VStr "druid"; VStr "sys"; VStr "information_schema"; VStr "druid"]
       ≤ length example_schemata)%nat.
Proof.
  apply (get_schema_names_never_reserved
           (answering_connection example_schemata) example_schemata);
    reflexivity.
Defined.

(** X12. A row without [SCHEMA_NAME], wherever it is in the answer, makes
    [get_schema_names] raise an attribute error; the names of the rows
    before it are not returned. *)
Theorem get_schema_names_raises_on_missing_name
    (connection : Connection) (rows : list Row) :
  conn_execute connection schemata_query = Return rows →
  Exists (λ row : Row, row !! "SCHEMA_NAME" = None) rows →
  get_schema_names connection
    = ([Executed schemata_query], Raise (AttributeError "SCHEMA_NAME")).
Proof.
  intros Hexec Hbad. unfold get_schema_names, execute, text.
  rewrite Hexec, bind_log.
  assert (schema_names_of rows = ([], Raise (AttributeError "SCHEMA_NAME")))
    as ->; [|done].
  clear Hexec. induction Hbad as [row rows Hrow|row rows _ IH];
    cbn [schema_names_of].
  - by rewrite (getattr_None _ _ Hrow).
  - unfold getattr. destruct (row !! "SCHEMA_NAME") as [v|]; [|done].
    rewrite bind_ret_l.
    destruct (py_in_list v RESERVED_SCHEMAS); cbn [negb]; [done|].
    by rewrite bind_ret_l, IH.
Qed.

Lemma get_schema_names_raises_on_missing_name_witness :
  get_schema_names
    (answering_connection [ {[ "SCHEMA_NAME" := VStr "druid" ]};
                            {[ "schema_name" := VStr "sys" ]} ])
  = ([Executed schemata_query], Raise (AttributeError "SCHEMA_NAME")).
Proof.
  apply (get_schema_names_raises_on_missing_name _
           [ {[ "SCHEMA_NAME" := VStr "druid" ]};
             {[ "schema_name" := VStr "sys" ]} ]).
  - reflexivity.
  - apply Exists_cons_tl, Exists_cons_hd. reflexivity.
Defined.

(** ** Nullability and defaults *)

(** X13. The answer of [get_is_nullable] depends on the letters of its
    argument only, not on their case. *)
Theorem get_is_nullable_ignores_case (s t : string) :
  eq_ignore_case s t → get_is_nullable s = get_is_nullable t.
Proof.
  intros H%lower_eq_ignore_case. unfold get_is_nullable. by rewrite H.
Qed.

Lemma get_is_nullable_ignores_case_witness :
  get_is_nullable "Yes" = get_is_nullable "yES".
Proof.
  apply get_is_nullable_ignores_case.
  apply eic_char; [right; left; by vm_compute|].
  apply eic_char; [right; right; by vm_compute|].
  apply eic_char; [right; right; by vm_compute|].
  apply eic_empty.
Defined.

(** X14. [get_default] returns [None] for the empty string and for nothing
    else: in particular a default that is [None] already comes back as
    the string "None". *)
Theorem get_default_None_iff_empty :
  (∀ v : pyval, get_default v = VNone ↔ v = VStr "")
  ∧ get_default VNone = VStr "None".
Proof.
  split; [|done]. intros v. unfold get_default, py_ne.
  destruct (py_eq v (VStr "")) eqn:Heq; simpl.
  - apply py_eq_str in Heq. by split.
  - split; [done|]. intros Hv%py_eq_str. congruence.
Qed.

(** ** Connection arguments for any URL *)

(** X15. No parameter of the query string can change the seven arguments
    the dialect takes from the URL and from itself: they are the same
    whatever the query mapping is. *)
Theorem query_cannot_override_url_fields
    (self : DruidDialect) (url : URL) (q : gmap string qval) (k : string) :
  k ∈ ["host"; "port"; "user"; "password"; "path"; "scheme"; "context"] →
  (create_connect_args self (with_query url q)).2 !! k
    = (create_connect_args self (with_query url ∅)).2 !! k.
Proof.
  rewrite !elem_of_cons, elem_of_nil.
  intros [->|[->|[->|[->|[->|[->|[->|[]]]]]]]]; by kwargs_lookup.
Qed.

Lemma query_cannot_override_url_fields_witness :
  (create_connect_args (DruidDialect_init None)
     (with_query shadowing_url (query shadowing_url))).2 !! "host"
  = (create_connect_args (DruidDialect_init None)
       (with_query shadowing_url ∅)).2 !! "host".
Proof.
  apply (query_cannot_override_url_fields (DruidDialect_init None)
           shadowing_url (query shadowing_url) "host").
  apply elem_of_cons. by left.
Defined.

Lemma kwargs_passthrough_witness :
  (create_connect_args (DruidDialect_init None) shadowing_url).2 !! "timeout"
    = of_qval <$> query shadowing_url !! "timeout".
Proof.
  apply (kwargs_passthrough (DruidDialect_init None) shadowing_url "timeout").
  - unfold consumed_params. rewrite !not_elem_of_cons.
    repeat split; try discriminate. apply not_elem_of_nil.
  - rewrite !not_elem_of_cons.
    repeat split; try discriminate. apply not_elem_of_nil.
Defined.

Lemma kwargs_ssl_verify_cert (self : DruidDialect) (url : URL) :
  (create_connect_args self url).2 !! "ssl_verify_cert"
    = Some (default (KVal (VBool true))
              (of_qval <$> query url !! "ssl_verify_cert")).
Proof. by kwargs_lookup. Qed.

(** X17. The three arguments read from the query string: [header] is true
    exactly when the parameter is the string "true", in that case;
    [parse_float] is the decimal class exactly when
    [parse_float_as_decimal] is that string; [ssl_verify_cert] is
    [True] when the parameter is absent and the parameter's string as
    it is otherwise, so it is never the boolean [False]. *)
Theorem query_flags (self : DruidDialect) (url : URL) :
  ((create_connect_args self url).2 !! "header" = Some (KVal (VBool true))
     ↔ query url !! "header" = Some (QStr "true"))
  ∧ ((create_connect_args self url).2 !! "parse_float" = Some (KClass Decimal)
     ↔ query url !! "parse_float_as_decimal" = Some (QStr "true"))
  ∧ (query url !! "ssl_verify_cert" = None →
     (create_connect_args self url).2 !! "ssl_verify_cert"
       = Some (KVal (VBool true)))
  ∧ (∀ s : string, query url !! "ssl_verify_cert" = Some (QStr s) →
     (create_connect_args self url).2 !! "ssl_verify_cert"
       = Some (KVal (VStr s)))
  ∧ (create_connect_args self url).2 !! "ssl_verify_cert"
      ≠ Some (KVal (VBool false)).
Proof.
  assert (Hq : ∀ o : option qval, qget_eq o "true" = true ↔ o = Some (QStr "true")).
  { intros [[s|l]|]; simpl; try (split; [discriminate|congruence]).
    rewrite String.eqb_eq. split; congruence. }
  rewrite kwargs_ssl_verify_cert. repeat split.
  - kwargs_lookup. intros [= H]. by apply Hq.
  - intros H%Hq. kwargs_lookup. by rewrite H.
  - kwargs_lookup. destruct (qget_eq _ _) eqn:H; [|done]. intros _. by apply Hq.
  - intros H%Hq. kwargs_lookup. by rewrite H.
  - by intros ->.
  - by intros s ->.
  - by destruct (query url !! "ssl_verify_cert") as [[s|l]|].
Qed.

Lemma query_flags_witness :
  (create_connect_args (DruidDialect_init None) example_url).2 !! "ssl_verify_cert"
    = Some (KVal (VStr "false"))
  ∧ (create_connect_args (DruidDialect_init None) bare_url).2 !! "ssl_verify_cert"
    = Some (KVal (VBool true))
  ∧ (create_connect_args (DruidDialect_init None) shadowing_url).2 !! "parse_float"
    = Some (KClass Decimal).
Proof.
  split; [|split].
  - apply (proj1 (proj2 (proj2 (proj2
             (query_flags (DruidDialect_init None) example_url)))) "false").
    reflexivity.
  - apply (proj1 (proj2 (proj2
             (query_flags (DruidDialect_init None) bare_url)))).
    reflexivity.
  - apply (proj1 (proj2 (query_flags (DruidDialect_init None) shadowing_url))).
    reflexivity.
Defined.

(** X18. The keys of the keyword mapping are the ten keys the dialect sets
    and the parameters of the query string other than the two it
    consumes: [ssl_verify_cert] is there once, as one of the ten, and
    [parse_float_as_decimal] is never there. *)
Theorem kwargs_keys (self : DruidDialect) (url : URL) (k : string) :
  is_Some ((create_connect_args self url).2 !! k)
  ↔ k ∈ fixed_keys
    ∨ (is_Some (query url !! k) ∧ k ≠ "ssl_verify_cert"
       ∧ k ≠ "parse_float_as_decimal").
Proof.
  destruct (decide (k ∈ fixed_keys)) as [Hin|Hout].
  - split; [by left|]. intros _. revert Hin. unfold fixed_keys.
    rewrite !elem_of_cons, elem_of_nil.
    intros [->|[->|[->|[->|[->|[->|[->|[->|[->|[->|[]]]]]]]]]]];
      kwargs_lookup; by eexists.
  - assert (Hfix := Hout). unfold fixed_keys in Hfix.
    rewrite !not_elem_of_cons in Hfix.
    assert ((create_connect_args self url).2 !! k = standard_args url !! k) as ->.
    { unfold create_connect_args, dict_display; cbn [foldl fst snd].
      by rewrite !lookup_insert_ne by (intros ?; subst k; intuition congruence). }
    rewrite standard_args_lookup. unfold consumed_params.
    case_decide as Hc; rewrite !elem_of_cons, elem_of_nil in Hc.
    + split; [by intros [? ?]|]. intros [?|(_ & ? & ?)]; [done|]. tauto.
    + rewrite fmap_is_Some. split; [|intros [?|[? _]]; done].
      intros H. right. split; [done|]. split; intros ->; tauto.
Qed.

(** X19. The plain and the TLS variant of the dialect build the same
    arguments but for [scheme], which is [http] for the one and [https]
    for the other. *)
Theorem variants_differ_in_scheme_only
    (context : option (gmap string pyval)) (url : URL) :
  (create_connect_args (DruidDialect_init context) url).2 !! "scheme"
    = Some (KVal (VStr "http"))
  ∧ (create_connect_args (DruidHTTPSDialect_init context) url).2 !! "scheme"
    = Some (KVal (VStr "https"))
  ∧ (∀ k : string, k ≠ "scheme" →
       (create_connect_args (DruidHTTPSDialect_init context) url).2 !! k
         = (create_connect_args (DruidDialect_init context) url).2 !! k).
Proof.
  split; [by kwargs_lookup|]. split; [by kwargs_lookup|].
  intros k Hk. unfold create_connect_args, dict_display; cbn [foldl fst snd].
  rewrite !lookup_insert. repeat case_decide; try done; congruence.
Qed.

Lemma variants_differ_in_scheme_only_witness :
  (create_connect_args (DruidHTTPSDialect_init None) example_url).2 !! "port"
    = (create_connect_args (DruidDialect_init None) example_url).2 !! "port".
Proof.
  apply (proj2 (proj2 (variants_differ_in_scheme_only None example_url)) "port").
  discriminate.
Defined.

(** ** Liveness check on any connection *)

(** X20. Whatever the connection does, [do_ping] runs the one statement
    SELECT 1, never raises an instance of [Exception], and returns
    true only when the statement succeeded. *)
Theorem do_ping_never_raises_Exception (dbapi_connection : Connection) :
  (do_ping dbapi_connection).1 = [Executed "SELECT 1"]
  ∧ (∀ e : exn, (do_ping dbapi_connection).2 = Raise e →
       isinstance_Exception e = false)
  ∧ ((do_ping dbapi_connection).2 = Return true
     ↔ ∃ rows : list Row, conn_execute dbapi_connection "SELECT 1" = Return rows).
Proof.
  unfold do_ping, execute, try_except_Exception, bind, ret.
  destruct (conn_execute dbapi_connection "SELECT 1") as [rows|e];
    [|destruct (isinstance_Exception e) eqn:He]; simpl.
  - split; [done|]. split; [done|]. split; [by exists rows|done].
  - split; [done|]. split; [done|]. split; [done|by intros [? ?]].
  - split; [done|]. split; [by intros ? [= <-]|]. split; [done|by intros [? ?]].
Qed.
